(** * ad_lldb.py: LLDB summary formatters for [sname_scope_t] and [sname_t]

    A shallow embedding of [src/ad_lldb.py] and the properties of its
    two pretty printers.  The script is glue between the debugger's
    Python API and two small formatting routines, so the development has
    three layers:

    - [Python]: the fragment of Python's evaluation model the script
      relies on: exceptions, the session dictionary handed to every
      formatter, global name resolution and [str.strip];
    - [Host]: the part of the LLDB scripting API the script calls, as an
      interface (a type class), with one concrete instance reading a
      finite debuggee memory image;
    - [Section Formatters]: [is_null], [show_sname_scope_t] and
      [show_sname_t], statement by statement. *)

From Stdlib Require Import ZArith Ascii String.
From stdpp Require Import base option list strings gmap.

Local Open Scope string_scope.

(** ** Python semantics used by the script *)

Module Python.

(** The exceptions the script can raise. *)
Inductive exn : Type :=
| NameError (name : string)
| TypeError (what : string)
| AttributeError (attribute : string).

(** How the evaluation of a statement sequence ends.  [OutOfFuel] is
    not a Python outcome: it marks a run of the model whose loop budget
    was too small, and stands for "still running". *)
Inductive outcome (A : Type) : Type :=
| Return (a : A)
| Raise (e : exn)
| OutOfFuel.
Arguments Return {A} a.
Arguments Raise {A} e.
Arguments OutOfFuel {A}.

(** [internal_dict], the dictionary LLDB passes by reference to every
    formatter call of a session: the only Python object the two
    formatters share with each other and with later calls. *)
Abbreviation session_dict := (gmap string string).

(** A computation reads and may update the session dictionary, and
    ends in an [outcome]. *)
Definition Py (A : Type) : Type := session_dict -> outcome A * session_dict.

Definition py_ret {A} (a : A) : Py A := fun d => (Return a, d).

Definition py_bind {A B} (f : A -> Py B) (c : Py A) : Py B :=
  fun d =>
    match c d with
    | (Return a, d') => f a d'
    | (Raise e, d') => (Raise e, d')
    | (OutOfFuel, d') => (OutOfFuel, d')
    end.

Definition raise {A} (e : exn) : Py A := fun d => (Raise e, d).

Definition out_of_fuel {A} : Py A := fun d => (OutOfFuel, d).

#[global] Instance Py_ret : MRet Py := @py_ret.
#[global] Instance Py_bind : MBind Py := @py_bind.

(** What a module-level name can be bound to in [ad_lldb.py]. *)
Inductive global_binding : Type :=
| BoundModule (name : string)
| BoundFunction (name : string)
| BoundStr (value : string).

(** The namespace of the module once it is imported: [__name__], the
    [import lldb] of line 21 and the four [def]s of lines 25, 31, 36
    and 52.  No other top-level statement binds a name, and no function
    of the script assigns to a global. *)
Definition module_globals : list (string * global_binding) :=
  [ ("__name__", BoundStr "ad_lldb");
    ("lldb", BoundModule "lldb");
    ("__lldb_init_module", BoundFunction "__lldb_init_module");
    ("is_null", BoundFunction "is_null");
    ("show_sname_scope_t", BoundFunction "show_sname_scope_t");
    ("show_sname_t", BoundFunction "show_sname_t") ].

Fixpoint lookup_binding (name : string) (ns : list (string * global_binding))
  : option global_binding :=
  match ns with
  | [] => None
  | (n, b) :: ns' => if String.eqb n name then Some b else lookup_binding name ns'
  end.

(** Reading a name that the enclosing function never assigns: Python
    looks in the module's globals (then in the builtins, none of which
    is spelled like an identifier of this script) and raises
    [NameError] when the name is bound nowhere. *)
Definition load_global (name : string) : Py global_binding :=
  match lookup_binding name module_globals with
  | Some b => mret b
  | None => raise (NameError name)
  end.

(** The double-quote character (code 34), the argument of [strip] and
    the wrapper of every result in the script. *)
Definition dquote : ascii := ascii_of_nat 34.

(** [s.lstrip(chars)]: drop leading characters that occur in [chars]. *)
Fixpoint lstrip (chars : list ascii) (s : string) : string :=
  match s with
  | EmptyString => EmptyString
  | String c s' => if bool_decide (c ∈ chars) then lstrip chars s' else s
  end.

(** [s.rstrip(chars)]: drop trailing characters that occur in [chars]. *)
Fixpoint rstrip (chars : list ascii) (s : string) : string :=
  match s with
  | EmptyString => EmptyString
  | String c s' =>
      match rstrip chars s' with
      | EmptyString => if bool_decide (c ∈ chars) then EmptyString
                       else String c EmptyString
      | r => String c r
      end
  end.

(** [s.strip(chars)]: both ends. *)
Definition strip (chars : list ascii) (s : string) : string :=
  rstrip chars (lstrip chars s).

End Python.
Import Python.

(** ** The LLDB scripting API *)

(** The calls the script makes on [lldb.SBValue], [lldb.SBTarget] and
    [lldb.SBType].  They read the debuggee and never write to it; on a
    value that could not be resolved they return an invalid value (or 0)
    rather than raising.  [GetSummary] returns the summary text of a
    value, or Python's [None] for a value that has none.
    [FindFirstType] is the query on
    [lldb.debugger.GetSelectedTarget()]. *)
Class Host : Type := {
  SBValue : Type;
  SBType : Type;
  IsValid : SBValue -> bool;
  GetValueAsUnsigned : SBValue -> Z;
  GetChildMemberWithName : SBValue -> string -> SBValue;
  Cast : SBValue -> SBType -> SBValue;
  GetSummary : SBValue -> option string;
  FindFirstType : string -> SBType;
  GetPointerType : SBType -> SBType;
}.

(** ** The script *)

Section Formatters.

Context {lldb : Host}.

(** [def is_null(ptr)], line 31.  Python's [or] evaluates its right
    operand only when the left one is false. *)
Definition is_null (ptr : SBValue) : Py bool :=
  if negb (IsValid ptr) then mret true
  else mret (GetValueAsUnsigned ptr =? 0)%Z.

(** A call [is_null(...)] from a formatter: the function is found
    through the module's globals first. *)
Definition call_is_null (ptr : SBValue) : Py bool :=
  _ ← load_global "is_null"; is_null ptr.

(** [obj.strip(chars)] on what [GetSummary] returned: [None] has no
    attribute [strip]. *)
Definition str_strip (obj : option string) (chars : list ascii) : Py string :=
  match obj with
  | Some s => mret (strip chars s)
  | None => raise (AttributeError "strip")
  end.

(** The expression of the [return] statement of both formatters, lines
    49 and 72: [rv] between two double-quote characters. *)
Definition quoted (rv : string) : string :=
  (String dquote EmptyString +:+ rv) +:+ String dquote EmptyString.

(** [def show_sname_scope_t(sname_scope, internal_dict)], line 36.  The
    parameter [internal_dict] is the session dictionary that [Py]
    threads through the call. *)
Definition show_sname_scope_t (sname_scope : SBValue) : Py string :=
  _ ← load_global "lldb";
  let sname_scope_ptr_t := GetPointerType (FindFirstType "sname_scope_t") in
  let rv := EmptyString in
  let void_data_ptr := GetChildMemberWithName sname_scope "data" in
  data_is_null ← call_is_null void_data_ptr;
  rv ← (if negb data_is_null then
          let sname_scope_ptr := Cast void_data_ptr sname_scope_ptr_t in
          let name_ptr := GetChildMemberWithName sname_scope_ptr "name" in
          name_is_null ← call_is_null name_ptr;
          if negb name_is_null
          then str_strip (GetSummary name_ptr) [dquote]
          else mret rv
        else mret rv);
  mret (quoted rv).

(** [__eol_test], the default end-of-list test of [linked_list_iter]:
    the value is invalid or reads as the address 0. *)
Definition eol_test (val : SBValue) : bool :=
  negb (IsValid val) || (GetValueAsUnsigned val =? 0)%Z.

(** Modelled from the spec: [SBValue.linked_list_iter] belongs to the
    debugger's Python bindings and is not part of the script.  The
    traversal starts at the value it is called on, follows the member
    [next_item_name] and stops at the first value that is null; the
    bindings also stop it at a value whose address was yielded before,
    which [visited] records.  A [for] statement over it runs its body
    once per yielded value, in order, and an exception raised by the
    body ends the loop at once.  [locals] are the variables the body
    assigns; [fuel] bounds the number of end-of-list tests. *)
Fixpoint for_linked_list_iter {L : Type} (fuel : nat) (item : SBValue)
    (next_item_name : string) (visited : gset Z)
    (body : SBValue -> L -> Py L) (locals : L)
  : Py L :=
  match fuel with
  | O => out_of_fuel
  | S fuel' =>
      if eol_test item || bool_decide (GetValueAsUnsigned item ∈ visited)
      then mret locals
      else
        locals' ← body item locals;
        for_linked_list_iter fuel'
          (GetChildMemberWithName item next_item_name)
          next_item_name ({[ GetValueAsUnsigned item ]} ∪ visited)
          body locals'
  end.

(** [value.Cast(obj)] where [obj] is what a global name of the script
    is bound to.  None of these objects is an [lldb.SBType], the only
    argument the binding accepts. *)
Definition Cast_global (value : SBValue) (obj : global_binding) : Py SBValue :=
  raise (TypeError "SBValue.Cast").

(** The body of the [for] statement of [show_sname_t], lines 61 to 70,
    on the local variables [colon2] and [rv].  Line 63 reads
    [sname_scope_t], a name that the function does not assign (its
    local is called [sname_scope_ptr_t]), so the read goes to the
    module's globals. *)
Definition show_sname_t_body (slist_node_ptr : SBValue)
    (locals : bool * string) : Py (bool * string) :=
  let '(colon2, rv) := locals in
  let void_data_ptr := GetChildMemberWithName slist_node_ptr "data" in
  data_is_null ← call_is_null void_data_ptr;
  if negb data_is_null then
    sname_scope_t ← load_global "sname_scope_t";
    sname_scope_ptr ← Cast_global void_data_ptr sname_scope_t;
    let name_ptr := GetChildMemberWithName sname_scope_ptr "name" in
    name_is_null ← call_is_null name_ptr;
    if negb name_is_null then
      let '(colon2, rv) :=
        if colon2 then (colon2, rv +:+ "::") else (true, rv) in
      summary ← str_strip (GetSummary name_ptr) [dquote];
      mret (colon2, rv +:+ summary)
    else mret (colon2, rv)
  else mret (colon2, rv).

(** [def show_sname_t(sname, internal_dict)], line 52, with
    [internal_dict] threaded by [Py] as above and a budget for the loop
    of line 60. *)
Definition show_sname_t (fuel : nat) (sname : SBValue) : Py string :=
  _ ← load_global "lldb";
  let sname_scope_ptr_t := GetPointerType (FindFirstType "sname_scope_t") in
  let colon2 := false in
  let rv := EmptyString in
  let head := GetChildMemberWithName sname "head" in
  locals ← for_linked_list_iter fuel head "next" ∅ show_sname_t_body
             (colon2, rv);
  mret (quoted (snd locals)).

(** [debugger.HandleCommand(command)]: the debugger is seen through the
    commands it has been handed, oldest first. *)
Definition HandleCommand (debugger : list string) (command : string)
  : list string :=
  debugger ++ [command].

(** The right operand of [+] on line 26: a text can only be joined with
    another text. *)
Definition str_operand (obj : global_binding) : Py string :=
  match obj with
  | BoundStr value => mret value
  | _ => raise (TypeError "can only concatenate str")
  end.

(** [def __lldb_init_module(debugger, internal_dict)], line 25: the two
    registrations, in the order of lines 27 and 28.  The result is the
    debugger after both commands. *)
Definition __lldb_init_module (debugger : list string) : Py (list string) :=
  module_name ← load_global "__name__";
  module_name ← str_operand module_name;
  let cmd_prefix := "type summary add -F " +:+ module_name in
  let debugger :=
    HandleCommand debugger
      (cmd_prefix +:+ ".show_sname_scope_t sname_scope_t") in
  let debugger :=
    HandleCommand debugger (cmd_prefix +:+ ".show_sname_t sname_t") in
  mret debugger.

End Formatters.

(** ** A concrete host: a finite debuggee memory image *)

Module Image.

(** What the debugger knows of a location: the pointer-valued members
    of the record stored (or pointed to) there, and the summary its
    string formatter shows for a [char*] with that address, when it has
    one. *)
Record debuggee : Type := {
  members : gmap Z (gmap string Z);
  summaries : gmap Z string;
}.

(** A value is valid or not, and reads as an address. *)
Record value : Type := { valid : bool; address : Z }.

Definition invalid : value := {| valid := false; address := 0 |}.
Definition at_address (a : Z) : value := {| valid := true; address := a |}.

Inductive type : Type :=
| NoType
| Named (name : string)
| Pointer (pointee : type).

Definition child (m : debuggee) (v : value) (name : string) : value :=
  if valid v then
    match members m !! address v ≫= (.!! name) with
    | Some a => at_address a
    | None => invalid
    end
  else invalid.

Definition host (m : debuggee) : Host := {|
  SBValue := value;
  SBType := type;
  IsValid := valid;
  GetValueAsUnsigned := fun v => if valid v then address v else 0%Z;
  GetChildMemberWithName := child m;
  Cast := fun v _ => v;
  GetSummary := fun v => summaries m !! address v;
  FindFirstType := Named;
  GetPointerType := fun t => match t with NoType => NoType | _ => Pointer t end;
|}.

(** A summary as the host shows a C string: the text between two
    double-quote characters. *)
Definition c_string (text : string) : string :=
  String dquote (text +:+ String dquote EmptyString).

(** A list node at [a] with members [data] and [next]. *)
Definition node (a data next : Z) : Z * gmap string Z :=
  (a, {[ "data" := data; "next" := next ]}).

(** A named scope at [a] whose [name] member points to [a + 1]. *)
Definition scope (a : Z) : Z * gmap string Z :=
  (a, {[ "name" := (a + 1)%Z ]}).

End Image.

(** ** Specification vocabulary *)

(** [n] double-quote characters in a row. *)
Fixpoint quotes (n : nat) : string :=
  match n with
  | O => EmptyString
  | S n' => String dquote (quotes n')
  end.

Definition first_char (s : string) : option ascii :=
  match s with
  | EmptyString => None
  | String c _ => Some c
  end.

Fixpoint last_char (s : string) : option ascii :=
  match s with
  | EmptyString => None
  | String c EmptyString => Some c
  | String _ s' => last_char s'
  end.

(** The text neither begins nor ends with a double-quote character. *)
Definition boundary_free (s : string) : Prop :=
  first_char s <> Some dquote /\ last_char s <> Some dquote.

(** One layer of surrounding quote characters, as the specification words
    the stripping step: at most one double quote is removed at the front,
    and at most one at the back. *)
Definition drop_first_quote (s : string) : string :=
  match s with
  | String c s' => if Ascii.eqb c dquote then s' else s
  | EmptyString => EmptyString
  end.

Fixpoint drop_last_quote (s : string) : string :=
  match s with
  | EmptyString => EmptyString
  | String c EmptyString => if Ascii.eqb c dquote then EmptyString else s
  | String c s' => String c (drop_last_quote s')
  end.

Definition strip_one_layer (s : string) : string :=
  drop_last_quote (drop_first_quote s).

(** The two-character result: an opening and a closing double quote. *)
Definition two_quotes : string := quotes 2.

Section Vocabulary.

Context {lldb : Host}.

(** What the specification calls a null pointer: the value is invalid,
    or its numeric address is zero. *)
Definition null_pointer (ptr : SBValue) : Prop :=
  IsValid ptr = false \/ GetValueAsUnsigned ptr = 0%Z.

(** The [name] pointer of the named scope a [data] pointer leads to, as
    [show_sname_scope_t] resolves it (lines 44 and 45). *)
Definition scope_name (void_data_ptr : SBValue) : SBValue :=
  GetChildMemberWithName
    (Cast void_data_ptr (GetPointerType (FindFirstType "sname_scope_t")))
    "name".


(** What [show_sname_scope_t] computes between the quotes, if it gets
    that far. *)
Definition scope_body (sname_scope : SBValue) : option string :=
  let void_data_ptr := GetChildMemberWithName sname_scope "data" in
  if eol_test void_data_ptr then Some EmptyString
  else if eol_test (scope_name void_data_ptr) then Some EmptyString
  else strip [dquote] <$> GetSummary (scope_name void_data_ptr).

(** The traversal has yielded the addresses [visited] and stands at
    [item]: it yields [n] more nodes, all without data, and then a node
    that carries some. *)
Inductive data_after : gset Z -> SBValue -> nat -> Prop :=
| data_here visited item :
    ~ null_pointer item ->
    GetValueAsUnsigned item ∉ visited ->
    ~ null_pointer (GetChildMemberWithName item "data") ->
    data_after visited item 0
| data_later visited item n :
    ~ null_pointer item ->
    GetValueAsUnsigned item ∉ visited ->
    null_pointer (GetChildMemberWithName item "data") ->
    data_after ({[ GetValueAsUnsigned item ]} ∪ visited)
      (GetChildMemberWithName item "next") n ->
    data_after visited item (S n).

(** The traversal has yielded the addresses [visited] and stands at
    [item]: it yields [n] more nodes, all without data, and then stops,
    at a null pointer or at an address it has yielded before. *)
Inductive bare_after : gset Z -> SBValue -> nat -> Prop :=
| bare_end visited item :
    null_pointer item \/ GetValueAsUnsigned item ∈ visited ->
    bare_after visited item 0
| bare_next visited item n :
    ~ null_pointer item ->
    GetValueAsUnsigned item ∉ visited ->
    null_pointer (GetChildMemberWithName item "data") ->
    bare_after ({[ GetValueAsUnsigned item ]} ∪ visited)
      (GetChildMemberWithName item "next") n ->
    bare_after visited item (S n).

(** A command that registers the function [f] of the module [ad_lldb] as
    the summary of the type [ty], [f] being a function the module
    defines. *)
Definition registers (command f ty : string) : Prop :=
  command = "type summary add -F ad_lldb." +:+ f +:+ " " +:+ ty
  /\ lookup_binding f module_globals = Some (BoundFunction f).

End Vocabulary.

(** ** Debuggee images used as concrete inputs *)

Module Inputs.
Import Image.

(** The [sname_t] value of every image below lives at address 1, the
    [sname_scope_t] value at address 2. *)
Definition sname : value := at_address 1.
Definition sname_scope : value := at_address 2.

(** A name whose list is empty: [head] is the null pointer. *)
Definition empty_name : debuggee := {|
  members := list_to_map [ (1%Z, {[ "head" := 0%Z ]}) ];
  summaries := ∅;
|}.

(** A name with the single scope [S]. *)
Definition name_S : debuggee := {|
  members := list_to_map
    [ (1%Z, {[ "head" := 16%Z ]}); node 16 100 0; scope 100 ];
  summaries := list_to_map [ (101%Z, c_string "S") ];
|}.

(** The name [S::T] of the docstring of [show_sname_t]. *)
Definition name_S_T : debuggee := {|
  members := list_to_map
    [ (1%Z, {[ "head" := 16%Z ]}); node 16 100 32; node 32 200 0;
      scope 100; scope 200 ];
  summaries := list_to_map [ (101%Z, c_string "S"); (201%Z, c_string "T") ];
|}.

(** Scopes [A] and [B] with a node without data between them. *)
Definition name_A_gap_B : debuggee := {|
  members := list_to_map
    [ (1%Z, {[ "head" := 16%Z ]});
      node 16 100 32; node 32 0 48; node 48 200 0;
      scope 100; scope 200 ];
  summaries := list_to_map [ (101%Z, c_string "A"); (201%Z, c_string "B") ];
|}.

(** A node without data followed by the scope [S]. *)
Definition name_gap_S : debuggee := {|
  members := list_to_map
    [ (1%Z, {[ "head" := 16%Z ]}); node 16 0 32; node 32 100 0; scope 100 ];
  summaries := list_to_map [ (101%Z, c_string "S") ];
|}.

(** Two list nodes, neither with data. *)
Definition name_without_data : debuggee := {|
  members := list_to_map
    [ (1%Z, {[ "head" := 16%Z ]}); node 16 0 32; node 32 0 0 ];
  summaries := ∅;
|}.

(** A corrupted list: the only node, without data, is its own
    successor. *)
Definition name_cycle : debuggee := {|
  members := list_to_map [ (1%Z, {[ "head" := 16%Z ]}); node 16 0 16 ];
  summaries := ∅;
|}.

(** A scope value the debugger cannot resolve: its [data] member comes
    back invalid. *)
Definition scope_unresolved : debuggee := {|
  members := ∅;
  summaries := ∅;
|}.

(** A scope whose [data] pointer is null. *)
Definition scope_null_data : debuggee := {|
  members := list_to_map [ (2%Z, {[ "data" := 0%Z ]}) ];
  summaries := ∅;
|}.

(** A scope with data whose [name] pointer is null. *)
Definition scope_null_name : debuggee := {|
  members := list_to_map
    [ (2%Z, {[ "data" := 100%Z ]}); (100%Z, {[ "name" := 0%Z ]}) ];
  summaries := ∅;
|}.

(** A scope with data and a name for which the host has no summary. *)
Definition scope_no_summary : debuggee := {|
  members := list_to_map [ (2%Z, {[ "data" := 100%Z ]}); scope 100 ];
  summaries := ∅;
|}.

(** A scope whose name is the empty C string: the host shows two double
    quotes with nothing between them. *)
Definition scope_empty_name : debuggee := {|
  members := list_to_map [ (2%Z, {[ "data" := 100%Z ]}); scope 100 ];
  summaries := list_to_map [ (101%Z, c_string EmptyString) ];
|}.

(** A scope whose name the host shows as [Foo] between one pair of
    double quotes. *)
Definition scope_Foo : debuggee := {|
  members := list_to_map [ (2%Z, {[ "data" := 100%Z ]}); scope 100 ];
  summaries := list_to_map [ (101%Z, c_string "Foo") ];
|}.

(** The same with two pairs of double quotes around [Foo]. *)
Definition scope_Foo_twice : debuggee := {|
  members := list_to_map [ (2%Z, {[ "data" := 100%Z ]}); scope 100 ];
  summaries := list_to_map [ (101%Z, quotes 2 +:+ "Foo" +:+ quotes 2) ];
|}.

(** The [data] pointer of the scope value of an image, the [name]
    pointer it leads to and the host's summary of that name. *)
Definition data_of (m : debuggee) : value :=
  GetChildMemberWithName (Host := host m) sname_scope "data".

Definition name_of (m : debuggee) : value :=
  scope_name (lldb := host m) (data_of m).

Definition summary_of (m : debuggee) : option string :=
  GetSummary (Host := host m) (name_of m).

End Inputs.

(** ** Facts about [strip] *)

Section Strip.

Lemma append_cons (c : ascii) (s t : string) :
  String c s +:+ t = String c (s +:+ t).
Proof. reflexivity. Qed.

Lemma append_empty (t : string) : EmptyString +:+ t = t.
Proof. reflexivity. Qed.

Lemma in_dquote (c : ascii) : bool_decide (c ∈ [dquote]) = Ascii.eqb c dquote.
Proof.
  destruct (Ascii.eqb_spec c dquote) as [->|Hne].
  - apply bool_decide_eq_true. apply list_elem_of_singleton. reflexivity.
  - apply bool_decide_eq_false. intros Hin.
    apply list_elem_of_singleton in Hin. contradiction.
Qed.

Lemma lstrip_cons (c : ascii) (s : string) :
  lstrip [dquote] (String c s)
  = if Ascii.eqb c dquote then lstrip [dquote] s else String c s.
Proof. simpl. rewrite in_dquote. reflexivity. Qed.

Lemma rstrip_cons (c : ascii) (s : string) :
  rstrip [dquote] (String c s)
  = match rstrip [dquote] s with
    | EmptyString => if Ascii.eqb c dquote then EmptyString
                     else String c EmptyString
    | r => String c r
    end.
Proof. simpl. rewrite in_dquote. reflexivity. Qed.

Lemma lstrip_quotes_app (i : nat) (s : string) :
  lstrip [dquote] (quotes i +:+ s) = lstrip [dquote] s.
Proof.
  induction i as [|i IH]; [reflexivity|].
  cbn [quotes]. rewrite append_cons, lstrip_cons, Ascii.eqb_refl. exact IH.
Qed.

Lemma lstrip_fixed (s : string) :
  first_char s <> Some dquote -> lstrip [dquote] s = s.
Proof.
  destruct s as [|c s]; [reflexivity|]. intros Hc.
  rewrite lstrip_cons. destruct (Ascii.eqb_spec c dquote) as [->|]; [|reflexivity].
  exfalso. apply Hc. reflexivity.
Qed.

Lemma lstrip_first (s : string) : first_char (lstrip [dquote] s) <> Some dquote.
Proof.
  induction s as [|c s IH]; [discriminate|].
  rewrite lstrip_cons. destruct (Ascii.eqb_spec c dquote) as [->|Hne]; [exact IH|].
  simpl. congruence.
Qed.

Lemma lstrip_decompose (s : string) :
  exists i, s = quotes i +:+ lstrip [dquote] s.
Proof.
  induction s as [|c s [i IH]]; [exists 0; reflexivity|].
  rewrite lstrip_cons. destruct (Ascii.eqb_spec c dquote) as [->|Hne].
  - exists (S i). cbn [quotes]. rewrite append_cons. f_equal. exact IH.
  - exists 0. reflexivity.
Qed.

Lemma rstrip_app_quotes (s : string) (j : nat) :
  rstrip [dquote] (s +:+ quotes j) = rstrip [dquote] s.
Proof.
  induction s as [|c s IH].
  - induction j as [|j IHj]; [reflexivity|].
    rewrite append_empty in *. cbn [quotes]. rewrite rstrip_cons, IHj.
    rewrite Ascii.eqb_refl. reflexivity.
  - rewrite append_cons, !rstrip_cons, IH. reflexivity.
Qed.

Lemma rstrip_fixed (s : string) :
  last_char s <> Some dquote -> rstrip [dquote] s = s.
Proof.
  induction s as [|c s IH]; [reflexivity|]. intros Hc.
  rewrite rstrip_cons. destruct s as [|c' s].
  - simpl. destruct (Ascii.eqb_spec c dquote) as [->|]; [|reflexivity].
    exfalso. apply Hc. reflexivity.
  - rewrite IH by exact Hc. reflexivity.
Qed.

Lemma rstrip_last (s : string) : last_char (rstrip [dquote] s) <> Some dquote.
Proof.
  induction s as [|c s IH]; [discriminate|].
  rewrite rstrip_cons. destruct (rstrip [dquote] s) as [|c' r] eqn:Hr.
  - destruct (Ascii.eqb_spec c dquote) as [->|Hne]; [discriminate|].
    simpl. congruence.
  - exact IH.
Qed.

Lemma rstrip_first (s : string) :
  first_char s <> Some dquote -> first_char (rstrip [dquote] s) <> Some dquote.
Proof.
  destruct s as [|c s]; [discriminate|]. intros Hc.
  rewrite rstrip_cons. destruct (rstrip [dquote] s).
  - destruct (Ascii.eqb_spec c dquote) as [->|Hne]; [discriminate|exact Hc].
  - exact Hc.
Qed.

Lemma rstrip_decompose (s : string) :
  exists j, s = rstrip [dquote] s +:+ quotes j.
Proof.
  induction s as [|c s [j IH]]; [exists 0; reflexivity|].
  rewrite rstrip_cons. destruct (rstrip [dquote] s) as [|c' r] eqn:Hr.
  - destruct (Ascii.eqb_spec c dquote) as [->|Hne].
    + exists (S j). rewrite append_empty. cbn [quotes]. f_equal. exact IH.
    + exists j. rewrite append_cons, append_empty. f_equal. exact IH.
  - exists j. rewrite append_cons. f_equal. exact IH.
Qed.

Lemma strip_boundary_free (s : string) : boundary_free (strip [dquote] s).
Proof.
  unfold strip. split.
  - apply rstrip_first, lstrip_first.
  - apply rstrip_last.
Qed.

Lemma strip_decompose (s : string) :
  exists i j, s = quotes i +:+ strip [dquote] s +:+ quotes j.
Proof.
  destruct (lstrip_decompose s) as [i Hi].
  destruct (rstrip_decompose (lstrip [dquote] s)) as [j Hj].
  exists i, j. unfold strip. rewrite <- Hj. exact Hi.
Qed.

Lemma lstrip_app_quotes (s : string) (j : nat) :
  lstrip [dquote] (s +:+ quotes j)
  = match lstrip [dquote] s with
    | EmptyString => EmptyString
    | r => r +:+ quotes j
    end.
Proof.
  induction s as [|c s IH].
  - rewrite append_empty. cbn [lstrip].
    induction j as [|j IHj]; [reflexivity|].
    cbn [quotes]. rewrite lstrip_cons, Ascii.eqb_refl. exact IHj.
  - rewrite append_cons, !lstrip_cons.
    destruct (Ascii.eqb_spec c dquote); [exact IH|reflexivity].
Qed.

(** Quotes added at either end of a text do not change what [strip]
    leaves of it. *)
Lemma strip_quotes_around (i j : nat) (t : string) :
  strip [dquote] (quotes i +:+ t +:+ quotes j) = strip [dquote] t.
Proof.
  unfold strip. rewrite lstrip_quotes_app, lstrip_app_quotes.
  destruct (lstrip [dquote] t) as [|c r] eqn:Hl; [reflexivity|].
  apply rstrip_app_quotes.
Qed.

Lemma strip_fixed (t : string) : boundary_free t -> strip [dquote] t = t.
Proof.
  intros [Hf Hl]. unfold strip. rewrite lstrip_fixed by exact Hf.
  apply rstrip_fixed, Hl.
Qed.

Lemma quoted_quotes (t : string) : quoted t = quotes 1 +:+ t +:+ quotes 1.
Proof. reflexivity. Qed.

(** On a summary that carries exactly one pair of quotes, [strip]
    removes exactly that pair. *)
Lemma strip_quoted (t : string) :
  boundary_free t -> strip [dquote] (quoted t) = t.
Proof.
  intros Ht. rewrite quoted_quotes, strip_quotes_around. apply strip_fixed, Ht.
Qed.

End Strip.

Section MoreStrings.

Lemma append_empty_r (s : string) : s +:+ EmptyString = s.
Proof.
  induction s as [|c s IH]; [reflexivity|]. rewrite append_cons, IH. reflexivity.
Qed.


Lemma length_quotes (n : nat) : String.length (quotes n) = n.
Proof. induction n as [|n IH]; [reflexivity|]. cbn. rewrite IH. reflexivity. Qed.

Lemma quotes_plus (i j : nat) : quotes i +:+ quotes j = quotes (i + j).
Proof.
  induction i as [|i IH]; [reflexivity|].
  cbn [quotes Nat.add]. rewrite append_cons, IH. reflexivity.
Qed.


(** [strip] leaves nothing exactly of the texts made of double quotes
    alone. *)
Lemma strip_empty_iff (s : string) :
  strip [dquote] s = EmptyString <-> exists n, s = quotes n.
Proof.
  split.
  - intros Hs. destruct (strip_decompose s) as (i & j & Hdec).
    exists (i + j). rewrite Hdec, Hs, append_empty. apply quotes_plus.
  - intros [n ->].
    rewrite <- (append_empty_r (quotes n)).
    change (quotes n +:+ EmptyString)
      with (quotes n +:+ EmptyString +:+ quotes 0).
    apply (strip_quotes_around n 0 EmptyString).
Qed.

Lemma quoted_cons (body : string) :
  quoted body = String dquote (body +:+ quotes 1).
Proof. reflexivity. Qed.




Lemma quoted_inj (a b : string) : quoted a = quoted b -> a = b.
Proof.
  rewrite !quoted_cons. intros [= H]. revert b H.
  induction a as [|c a IH]; intros [|c' b]; rewrite ?append_cons, ?append_empty;
    cbn [quotes]; intros H.
  - reflexivity.
  - injection H as _ H. destruct b; discriminate H.
  - injection H as _ H. destruct a; discriminate H.
  - injection H as -> H. f_equal. apply IH, H.
Qed.

End MoreStrings.

(** ** How the script's computations run *)

(** Unfold the monad down to functions on the session dictionary. *)
Ltac py_unfold :=
  unfold mbind, mret, Py_bind, Py_ret, py_bind, py_ret, raise, out_of_fuel.

(** Point at the member of a list written out in full. *)
Ltac pick_member :=
  repeat first [apply list_elem_of_here | apply list_elem_of_further].

Section Runs.

Context {lldb : Host}.

Lemma eol_test_null (ptr : SBValue) : eol_test ptr = true <-> null_pointer ptr.
Proof.
  unfold eol_test, null_pointer.
  rewrite orb_true_iff, negb_true_iff, Z.eqb_eq. reflexivity.
Qed.

Lemma eol_test_not_null (ptr : SBValue) :
  eol_test ptr = false <-> ~ null_pointer ptr.
Proof.
  rewrite <- eol_test_null. destruct (eol_test ptr); split; congruence.
Qed.

Lemma is_null_run (ptr : SBValue) (d : session_dict) :
  is_null ptr d = (Return (eol_test ptr), d).
Proof.
  unfold is_null, eol_test. destruct (IsValid ptr); reflexivity.
Qed.

Lemma load_global_lldb (d : session_dict) :
  load_global "lldb" d = (Return (BoundModule "lldb"), d).
Proof. reflexivity. Qed.

Lemma call_is_null_run (ptr : SBValue) (d : session_dict) :
  call_is_null ptr d = (Return (eol_test ptr), d).
Proof.
  unfold call_is_null. py_unfold. cbn. apply is_null_run.
Qed.

Lemma Return_pair_inj {A : Type} (a b : A) (d d' : session_dict) :
  (Return a, d) = (Return b, d') -> a = b.
Proof. intros H. injection H as H _. exact H. Qed.

(** [show_sname_scope_t] returns its body between quotes, or fails on
    line 47 when the name has no summary. *)
Lemma show_sname_scope_t_run (sname_scope : SBValue) (d : session_dict) :
  show_sname_scope_t sname_scope d
  = (match scope_body sname_scope with
     | Some body => Return (quoted body)
     | None => Raise (AttributeError "strip")
     end, d).
Proof.
  unfold show_sname_scope_t, scope_body, scope_name. py_unfold.
  rewrite load_global_lldb, call_is_null_run.
  destruct (eol_test (GetChildMemberWithName sname_scope "data"));
    cbn [negb]; [reflexivity|].
  rewrite call_is_null_run.
  destruct (eol_test _); cbn [negb]; [reflexivity|].
  unfold str_strip. py_unfold. destruct (GetSummary _); reflexivity.
Qed.

(** With data and a name, everything depends on the summary. *)
Lemma show_sname_scope_t_named (sname_scope : SBValue) (d : session_dict) :
  ~ null_pointer (GetChildMemberWithName sname_scope "data") ->
  ~ null_pointer (scope_name (GetChildMemberWithName sname_scope "data")) ->
  show_sname_scope_t sname_scope d
  = (match GetSummary (scope_name (GetChildMemberWithName sname_scope "data"))
     with
     | Some summary => Return (quoted (strip [dquote] summary))
     | None => Raise (AttributeError "strip")
     end, d).
Proof.
  intros Hdata Hname.
  apply (proj2 (eol_test_not_null _)) in Hdata.
  apply (proj2 (eol_test_not_null _)) in Hname.
  rewrite show_sname_scope_t_run. unfold scope_body.
  rewrite Hdata, Hname. destruct (GetSummary _); reflexivity.
Qed.

Lemma scope_body_boundary_free (sname_scope : SBValue) (body : string) :
  scope_body sname_scope = Some body -> boundary_free body.
Proof.
  unfold scope_body.
  destruct (eol_test (GetChildMemberWithName sname_scope "data"));
    [intros [= <-]; split; discriminate|].
  destruct (eol_test _); [intros [= <-]; split; discriminate|].
  destruct (GetSummary _); [|discriminate].
  intros [= <-]. apply strip_boundary_free.
Qed.


(** The loop body leaves [colon2] and [rv] alone on a node without
    data, and fails on line 63 on any node that has some. *)
Lemma show_sname_t_body_run (slist_node_ptr : SBValue)
    (locals : bool * string) (d : session_dict) :
  show_sname_t_body slist_node_ptr locals d
  = if eol_test (GetChildMemberWithName slist_node_ptr "data")
    then (Return locals, d)
    else (Raise (NameError "sname_scope_t"), d).
Proof.
  destruct locals as [colon2 rv].
  unfold show_sname_t_body. py_unfold. rewrite call_is_null_run.
  destruct (eol_test _); reflexivity.
Qed.

(** One step of the traversal that goes on: the node is not null and its
    address is new. *)
Lemma for_linked_list_iter_step (fuel : nat) (item : SBValue)
    (visited : gset Z) (locals : bool * string) (d : session_dict) :
  eol_test item = false ->
  GetValueAsUnsigned item ∉ visited ->
  for_linked_list_iter (S fuel) item "next" visited show_sname_t_body locals d
  = if eol_test (GetChildMemberWithName item "data")
    then for_linked_list_iter fuel (GetChildMemberWithName item "next") "next"
           ({[ GetValueAsUnsigned item ]} ∪ visited) show_sname_t_body locals d
    else (Raise (NameError "sname_scope_t"), d).
Proof.
  intros Hitem Hfresh. cbn [for_linked_list_iter].
  rewrite Hitem, (bool_decide_eq_false_2 _ Hfresh). cbn [orb].
  py_unfold. rewrite show_sname_t_body_run.
  destruct (eol_test (GetChildMemberWithName item "data")); reflexivity.
Qed.

(** One step of the traversal that stops. *)
Lemma for_linked_list_iter_stop (fuel : nat) (item : SBValue)
    (visited : gset Z) (locals : bool * string) (d : session_dict) :
  eol_test item = true \/ GetValueAsUnsigned item ∈ visited ->
  for_linked_list_iter (S fuel) item "next" visited show_sname_t_body locals d
  = (Return locals, d).
Proof.
  intros Hstop. cbn [for_linked_list_iter].
  destruct Hstop as [-> | Hseen]; [reflexivity|].
  rewrite (bool_decide_eq_true_2 _ Hseen), orb_true_r. reflexivity.
Qed.

(** Either a step stops or it goes on. *)
Lemma stop_or_step (item : SBValue) (visited : gset Z) :
  (eol_test item = true \/ GetValueAsUnsigned item ∈ visited)
  \/ (eol_test item = false /\ GetValueAsUnsigned item ∉ visited).
Proof.
  destruct (eol_test item); [left; left; reflexivity|].
  destruct (decide (GetValueAsUnsigned item ∈ visited)) as [Hin | Hout].
  - left. right. exact Hin.
  - right. split; [reflexivity | exact Hout].
Qed.

(** The three ways the traversal can end. *)
Lemma for_linked_list_iter_run (fuel : nat) (item : SBValue)
    (visited : gset Z) (locals : bool * string) (d : session_dict) :
  for_linked_list_iter fuel item "next" visited show_sname_t_body locals d
  ∈ [ (Return locals, d); (Raise (NameError "sname_scope_t"), d);
      (OutOfFuel, d) ].
Proof.
  revert item visited. induction fuel as [|fuel IH]; intros item visited.
  - cbn. py_unfold. pick_member.
  - destruct (stop_or_step item visited) as [Hstop | [Hitem Hfresh]].
    + rewrite (for_linked_list_iter_stop _ _ _ _ _ Hstop). pick_member.
    + rewrite (for_linked_list_iter_step _ _ _ _ _ Hitem Hfresh).
      destruct (eol_test (GetChildMemberWithName item "data"));
        [apply IH | pick_member].
Qed.

Lemma show_sname_t_unfold (fuel : nat) (sname : SBValue) (d : session_dict) :
  show_sname_t fuel sname d
  = match for_linked_list_iter fuel (GetChildMemberWithName sname "head")
            "next" ∅ show_sname_t_body (false, EmptyString) d with
    | (Return locals, d') => (Return (quoted (snd locals)), d')
    | (Raise e, d') => (Raise e, d')
    | (OutOfFuel, d') => (OutOfFuel, d')
    end.
Proof. reflexivity. Qed.

(** All that [show_sname_t] can do: return the empty quoted text, fail
    with [NameError], or keep running. *)
Lemma show_sname_t_run (fuel : nat) (sname : SBValue) (d : session_dict) :
  show_sname_t fuel sname d
  ∈ [ (Return two_quotes, d); (Raise (NameError "sname_scope_t"), d);
      (OutOfFuel, d) ].
Proof.
  rewrite show_sname_t_unfold.
  pose proof (for_linked_list_iter_run fuel
    (GetChildMemberWithName sname "head") ∅ (false, EmptyString) d) as H.
  rewrite !elem_of_cons in H. destruct H as [-> | [-> | [-> | H]]].
  - pick_member.
  - pick_member.
  - pick_member.
  - inversion H.
Qed.

Lemma for_linked_list_iter_raises (visited : gset Z) (item : SBValue)
    (n : nat) :
  data_after visited item n ->
  forall fuel locals d, n < fuel ->
    for_linked_list_iter fuel item "next" visited show_sname_t_body locals d
    = (Raise (NameError "sname_scope_t"), d).
Proof.
  induction 1 as [visited item Hitem Hfresh Hdata
                 | visited item n Hitem Hfresh Hdata _ IH];
    intros [|fuel] locals d Hfuel; try lia;
    apply (proj2 (eol_test_not_null _)) in Hitem;
    rewrite (for_linked_list_iter_step _ _ _ _ _ Hitem Hfresh).
  - apply (proj2 (eol_test_not_null _)) in Hdata. rewrite Hdata. reflexivity.
  - apply (proj2 (eol_test_null _)) in Hdata. rewrite Hdata. apply IH. lia.
Qed.

(** The defect of line 63 in general: as soon as the traversal yields a
    node with data, the formatter fails instead of returning a name. *)
Lemma show_sname_t_raises (sname : SBValue) (n : nat) :
  data_after ∅ (GetChildMemberWithName sname "head") n ->
  forall fuel d, n < fuel ->
    show_sname_t fuel sname d = (Raise (NameError "sname_scope_t"), d).
Proof.
  intros H fuel d Hfuel. rewrite show_sname_t_unfold.
  rewrite (for_linked_list_iter_raises _ _ _ H) by exact Hfuel. reflexivity.
Qed.


Lemma for_linked_list_iter_returns_iff (fuel : nat) (item : SBValue)
    (visited : gset Z) (locals : bool * string) (d : session_dict) :
  for_linked_list_iter fuel item "next" visited show_sname_t_body locals d
  = (Return locals, d)
  <-> exists n, n < fuel /\ bare_after visited item n.
Proof.
  revert item visited. induction fuel as [|fuel IH]; intros item visited.
  - cbn. py_unfold. split; [discriminate | intros (n & Hn & _); lia].
  - destruct (stop_or_step item visited) as [Hstop | [Hitem Hfresh]].
    + rewrite (for_linked_list_iter_stop _ _ _ _ _ Hstop).
      split; [|reflexivity]. intros _. exists 0. split; [lia|].
      apply bare_end. destruct Hstop as [Hnull | Hseen];
        [left; apply eol_test_null, Hnull | right; exact Hseen].
    + rewrite (for_linked_list_iter_step _ _ _ _ _ Hitem Hfresh).
      assert (~ (null_pointer item \/ GetValueAsUnsigned item ∈ visited))
        as Hgo.
      { intros [Hnull | Hseen]; [|contradiction].
        apply (proj2 (eol_test_null _)) in Hnull. congruence. }
      destruct (eol_test (GetChildMemberWithName item "data")) eqn:Hdata.
      * rewrite IH. split.
        -- intros (n & Hn & Hbare). exists (S n). split; [lia|].
           apply bare_next;
             [apply eol_test_not_null, Hitem | exact Hfresh
             | apply eol_test_null, Hdata | exact Hbare].
        -- intros (n & Hn & Hbare).
           inversion Hbare as [v i Hend | v i m _ _ _ Hnext]; subst.
           ++ contradiction.
           ++ exists m. split; [lia | exact Hnext].
      * split; [discriminate|]. intros (n & Hn & Hbare).
        inversion Hbare as [v i Hend | v i m _ _ Hnull _]; subst.
        -- contradiction.
        -- apply (proj2 (eol_test_null _)) in Hnull. congruence.
Qed.

Lemma for_linked_list_iter_raises_iff (fuel : nat) (item : SBValue)
    (visited : gset Z) (locals : bool * string) (d : session_dict) :
  for_linked_list_iter fuel item "next" visited show_sname_t_body locals d
  = (Raise (NameError "sname_scope_t"), d)
  <-> exists n, n < fuel /\ data_after visited item n.
Proof.
  split.
  - revert item visited. induction fuel as [|fuel IH]; intros item visited.
    + cbn. py_unfold. discriminate.
    + destruct (stop_or_step item visited) as [Hstop | [Hitem Hfresh]].
      * rewrite (for_linked_list_iter_stop _ _ _ _ _ Hstop). discriminate.
      * rewrite (for_linked_list_iter_step _ _ _ _ _ Hitem Hfresh).
        destruct (eol_test (GetChildMemberWithName item "data")) eqn:Hdata.
        -- intros H. destruct (IH _ _ H) as (n & Hn & Hafter).
           exists (S n). split; [lia|].
           apply data_later;
             [apply eol_test_not_null, Hitem | exact Hfresh
             | apply eol_test_null, Hdata | exact Hafter].
        -- intros _. exists 0. split; [lia|].
           apply data_here;
             [apply eol_test_not_null, Hitem | exact Hfresh
             | apply eol_test_not_null, Hdata].
  - intros (n & Hn & Hafter).
    apply (for_linked_list_iter_raises _ _ _ Hafter). exact Hn.
Qed.

End Runs.

(** ** The properties *)

Section Properties.

Context {lldb : Host}.

(** C9.  [is_null] returns true exactly when the value is invalid or its
    numeric address is zero; it always returns (also on an invalid value,
    where the address is not even read) and leaves the session dictionary
    as it found it. *)
Theorem is_null_spec (ptr : SBValue) (d : session_dict) :
  exists b : bool,
    is_null ptr d = (Return b, d)
    /\ (b = true <-> IsValid ptr = false \/ GetValueAsUnsigned ptr = 0%Z).
Proof.
  exists (eol_test ptr). split.
  - apply is_null_run.
  - apply eol_test_null.
Qed.

(** C4.  When the [data] pointer of a scope value is null or invalid, or
    when it is valid and the [name] pointer of the named scope is null,
    [show_sname_scope_t] returns the two-character string made of an
    opening and a closing double quote. *)
Theorem show_sname_scope_t_null (sname_scope : SBValue) (d : session_dict) :
  null_pointer (GetChildMemberWithName sname_scope "data")
  \/ (~ null_pointer (GetChildMemberWithName sname_scope "data")
      /\ null_pointer (scope_name (GetChildMemberWithName sname_scope "data"))) ->
  show_sname_scope_t sname_scope d = (Return two_quotes, d).
Proof.
  intros H. rewrite show_sname_scope_t_run. unfold scope_body.
  destruct H as [Hdata | [Hdata Hname]].
  - apply (proj2 (eol_test_null _)) in Hdata. rewrite Hdata. reflexivity.
  - apply (proj2 (eol_test_not_null _)) in Hdata.
    apply (proj2 (eol_test_null _)) in Hname.
    rewrite Hdata, Hname. reflexivity.
Qed.

(** C5.  On a name value whose list is empty ([head] is null),
    [show_sname_t] returns the two-character string made of an opening
    and a closing double quote, whatever the loop budget. *)
Theorem show_sname_t_empty_list (sname : SBValue) (fuel : nat)
    (d : session_dict) :
  null_pointer (GetChildMemberWithName sname "head") ->
  show_sname_t (S fuel) sname d = (Return two_quotes, d).
Proof.
  intros Hhead. apply (proj2 (eol_test_null _)) in Hhead.
  rewrite show_sname_t_unfold.
  rewrite (for_linked_list_iter_stop _ _ _ _ _ (or_introl Hhead)).
  reflexivity.
Qed.

(** C3, as amended.  On a scope value whose [data] and [name] pointers
    are not null and for whose name the host has a summary,
    [show_sname_scope_t] returns that summary with every leading and
    trailing double quote stripped, between two double quotes; when the
    summary is a text between one pair of double quotes, and the text
    itself neither begins nor ends with one, that is the removal of
    exactly one layer and the result is the summary again (so the
    summary of [Foo] in double quotes is returned as it is). *)
Theorem show_sname_scope_t_strips_quotes (sname_scope : SBValue)
    (d : session_dict) (summary : string) :
  ~ null_pointer (GetChildMemberWithName sname_scope "data") ->
  ~ null_pointer (scope_name (GetChildMemberWithName sname_scope "data")) ->
  GetSummary (scope_name (GetChildMemberWithName sname_scope "data"))
  = Some summary ->
  show_sname_scope_t sname_scope d
  = (Return (quoted (strip [dquote] summary)), d)
  /\ forall text : string,
       boundary_free text ->
       summary = quoted text ->
       show_sname_scope_t sname_scope d = (Return (quoted text), d).
Proof.
  intros Hdata Hname Hsummary.
  assert (show_sname_scope_t sname_scope d
          = (Return (quoted (strip [dquote] summary)), d)) as Hrun.
  { rewrite (show_sname_scope_t_named _ _ Hdata Hname), Hsummary.
    reflexivity. }
  split; [exact Hrun|].
  intros text Hfree ->. rewrite Hrun, strip_quoted by exact Hfree.
  reflexivity.
Qed.

(** C10.  The stripping step removes every double quote at both ends of
    the summary: if the summary is a text with any number of double
    quotes added in front and behind, the body of the result is what
    [strip] leaves of the text alone, it neither begins nor ends with a
    double quote, and the text is that body between runs of double
    quotes.  Summaries that differ only in their boundary quotes thus
    give one result. *)
Theorem show_sname_scope_t_strips_all_quotes (sname_scope : SBValue)
    (d : session_dict) (i j : nat) (text : string) :
  ~ null_pointer (GetChildMemberWithName sname_scope "data") ->
  ~ null_pointer (scope_name (GetChildMemberWithName sname_scope "data")) ->
  GetSummary (scope_name (GetChildMemberWithName sname_scope "data"))
  = Some (quotes i +:+ text +:+ quotes j) ->
  exists body : string,
    show_sname_scope_t sname_scope d = (Return (quoted body), d)
    /\ body = strip [dquote] text
    /\ boundary_free body
    /\ exists i' j', text = quotes i' +:+ body +:+ quotes j'.
Proof.
  intros Hdata Hname Hsummary.
  exists (strip [dquote] text). repeat split.
  - rewrite (show_sname_scope_t_named _ _ Hdata Hname), Hsummary.
    rewrite strip_quotes_around. reflexivity.
  - apply strip_boundary_free.
  - apply strip_boundary_free.
  - apply strip_decompose.
Qed.


End Properties.

(** ** The properties at concrete inputs *)

(** A pointer of an image that is valid and not zero is not null. *)
Ltac not_null := intros [H | H]; vm_compute in H; discriminate H.

(** A pointer of an image that reads as zero is null. *)
Ltac null_address := right; vm_compute; reflexivity.

(** A fact about the addresses the traversal of an image has yielded. *)
Ltac by_addresses := apply (bool_decide_unpack _); vm_compute; exact I.

Lemma show_sname_scope_t_null_witness :
  show_sname_scope_t (lldb := Image.host Inputs.scope_unresolved)
    Inputs.sname_scope ∅ = (Return two_quotes, ∅)
  /\ show_sname_scope_t (lldb := Image.host Inputs.scope_null_data)
       Inputs.sname_scope ∅ = (Return two_quotes, ∅)
  /\ show_sname_scope_t (lldb := Image.host Inputs.scope_null_name)
       Inputs.sname_scope ∅ = (Return two_quotes, ∅).
Proof.
  split; [|split].
  - apply (show_sname_scope_t_null (lldb := Image.host Inputs.scope_unresolved)).
    left. left. vm_compute. reflexivity.
  - apply (show_sname_scope_t_null (lldb := Image.host Inputs.scope_null_data)).
    left. null_address.
  - apply (show_sname_scope_t_null (lldb := Image.host Inputs.scope_null_name)).
    right. split; [not_null | null_address].
Defined.

Lemma show_sname_t_empty_list_witness :
  show_sname_t (lldb := Image.host Inputs.empty_name) 1 Inputs.sname ∅
  = (Return two_quotes, ∅).
Proof.
  apply (show_sname_t_empty_list (lldb := Image.host Inputs.empty_name)).
  null_address.
Defined.

Lemma show_sname_scope_t_strips_quotes_witness :
  show_sname_scope_t (lldb := Image.host Inputs.scope_Foo) Inputs.sname_scope ∅
  = (Return (Image.c_string "Foo"), ∅).
Proof.
  apply (proj2 (show_sname_scope_t_strips_quotes
                  (lldb := Image.host Inputs.scope_Foo) Inputs.sname_scope ∅
                  (Image.c_string "Foo")
                  ltac:(not_null) ltac:(not_null) eq_refl) "Foo").
  - split; vm_compute; discriminate.
  - vm_compute. reflexivity.
Defined.

(** C3, as stated, fails.  The host shows the name between two pairs of
    double quotes; removing one layer would leave one pair, and the
    result would carry two pairs again.  [show_sname_scope_t] returns
    [Foo] between a single pair.  And where the host has no summary for
    the name there is no text to strip: line 47 raises. *)
Lemma show_sname_scope_t_not_one_layer :
  (~ null_pointer (lldb := Image.host Inputs.scope_Foo_twice)
       (Inputs.data_of Inputs.scope_Foo_twice)
   /\ ~ null_pointer (lldb := Image.host Inputs.scope_Foo_twice)
          (Inputs.name_of Inputs.scope_Foo_twice)
   /\ Inputs.summary_of Inputs.scope_Foo_twice
      = Some (quotes 2 +:+ "Foo" +:+ quotes 2)
   /\ show_sname_scope_t (lldb := Image.host Inputs.scope_Foo_twice)
        Inputs.sname_scope ∅
      = (Return (quotes 1 +:+ "Foo" +:+ quotes 1), ∅)
   /\ quoted (strip_one_layer (quotes 2 +:+ "Foo" +:+ quotes 2))
      = quotes 2 +:+ "Foo" +:+ quotes 2
   /\ show_sname_scope_t (lldb := Image.host Inputs.scope_Foo_twice)
        Inputs.sname_scope ∅
      <> (Return (quoted (strip_one_layer
                            (quotes 2 +:+ "Foo" +:+ quotes 2))), ∅))
  /\ (~ null_pointer (lldb := Image.host Inputs.scope_no_summary)
         (Inputs.data_of Inputs.scope_no_summary)
      /\ ~ null_pointer (lldb := Image.host Inputs.scope_no_summary)
             (Inputs.name_of Inputs.scope_no_summary)
      /\ Inputs.summary_of Inputs.scope_no_summary = None
      /\ show_sname_scope_t (lldb := Image.host Inputs.scope_no_summary)
           Inputs.sname_scope ∅
         = (Raise (AttributeError "strip"), ∅)).
Proof.
  split.
  - split; [not_null|]. split; [not_null|].
    split; [vm_compute; reflexivity|].
    split; [vm_compute; reflexivity|].
    split; [vm_compute; reflexivity|].
    vm_compute. discriminate.
  - split; [not_null|]. split; [not_null|].
    split; vm_compute; reflexivity.
Qed.

Lemma show_sname_scope_t_strips_all_quotes_witness :
  exists body : string,
    show_sname_scope_t (lldb := Image.host Inputs.scope_Foo_twice)
      Inputs.sname_scope ∅ = (Return (quoted body), ∅)
    /\ body = strip [dquote] "Foo"
    /\ boundary_free body
    /\ exists i' j', "Foo" = quotes i' +:+ body +:+ quotes j'.
Proof.
  apply (show_sname_scope_t_strips_all_quotes
           (lldb := Image.host Inputs.scope_Foo_twice)
           Inputs.sname_scope ∅ 2 2 "Foo").
  - not_null.
  - not_null.
  - vm_compute. reflexivity.
Defined.


(** C1.  On the name [S::T] (two nodes whose scopes are named [S] and
    [T]) the claim promises the text [S::T] between double quotes.
    [show_sname_t] raises [NameError] on the first node instead: line 63
    reads [sname_scope_t], which no statement of the script binds. *)
Theorem show_sname_t_S_T_raises (fuel : nat) (d : session_dict) :
  show_sname_t (lldb := Image.host Inputs.name_S_T) (S fuel) Inputs.sname d
  = (Raise (NameError "sname_scope_t"), d).
Proof.
  apply (show_sname_t_raises (lldb := Image.host Inputs.name_S_T)
           Inputs.sname 0); [|lia].
  apply data_here; [not_null | by_addresses | not_null].
Qed.

(** C2.  The claim promises that no call raises.  On a name with the
    single scope [S], [show_sname_t] raises [NameError]. *)
Theorem show_sname_t_S_raises (fuel : nat) (d : session_dict) :
  show_sname_t (lldb := Image.host Inputs.name_S) (S fuel) Inputs.sname d
  = (Raise (NameError "sname_scope_t"), d).
Proof.
  apply (show_sname_t_raises (lldb := Image.host Inputs.name_S)
           Inputs.sname 0); [|lia].
  apply data_here; [not_null | by_addresses | not_null].
Qed.

(** C6.  The claim promises one quoted string from every call.  On the
    scopes [A] and [B] with a node without data between them,
    [show_sname_t] produces no string at all: it raises [NameError]. *)
Theorem show_sname_t_A_gap_B_raises (fuel : nat) (d : session_dict) :
  show_sname_t (lldb := Image.host Inputs.name_A_gap_B) (S fuel) Inputs.sname d
  = (Raise (NameError "sname_scope_t"), d).
Proof.
  apply (show_sname_t_raises (lldb := Image.host Inputs.name_A_gap_B)
           Inputs.sname 0); [|lia].
  apply data_here; [not_null | by_addresses | not_null].
Qed.

(** ** Further properties of the script *)

Section MoreProperties.

Context {lldb : Host}.

(** X1.  [__lldb_init_module] hands the debugger two commands, after the
    ones it already had and in this order: the registration of
    [ad_lldb.show_sname_scope_t] for the type [sname_scope_t], then of
    [ad_lldb.show_sname_t] for the type [sname_t].  Both names are
    functions the module defines; the call returns and leaves the session
    dictionary alone. *)
Theorem lldb_init_module_registers (debugger : list string)
    (d : session_dict) :
  exists c1 c2 : string,
    __lldb_init_module debugger d = (Return (debugger ++ [c1; c2])%list, d)
    /\ registers c1 "show_sname_scope_t" "sname_scope_t"
    /\ registers c2 "show_sname_t" "sname_t".
Proof.
  eexists _, _. split; [|split].
  - unfold __lldb_init_module, HandleCommand. py_unfold. cbn.
    rewrite <- app_assoc. reflexivity.
  - split; reflexivity.
  - split; reflexivity.
Qed.


(** X3.  [show_sname_scope_t] returns the two bare double quotes in
    exactly three cases: the [data] pointer is null, the [name] pointer
    is null, or the summary of the name consists of double quotes only
    (as for the empty C string).  A null name and an empty name are
    displayed alike. *)
Theorem show_sname_scope_t_empty_iff (sname_scope : SBValue)
    (d : session_dict) :
  show_sname_scope_t sname_scope d = (Return two_quotes, d)
  <-> null_pointer (GetChildMemberWithName sname_scope "data")
      \/ null_pointer (scope_name (GetChildMemberWithName sname_scope "data"))
      \/ exists n : nat,
           GetSummary (scope_name (GetChildMemberWithName sname_scope "data"))
           = Some (quotes n).
Proof.
  rewrite show_sname_scope_t_run. unfold scope_body.
  destruct (eol_test (GetChildMemberWithName sname_scope "data")) eqn:Hdata.
  { split; [|reflexivity]. intros _. left. apply eol_test_null, Hdata. }
  destruct (eol_test (scope_name _)) eqn:Hname.
  { split; [|reflexivity]. intros _. right. left. apply eol_test_null, Hname. }
  assert (forall P Q : Prop, ~ P -> ~ Q -> forall R, (P \/ Q \/ R) <-> R)
    as Hdrop by tauto.
  rewrite Hdrop by (apply eol_test_not_null; assumption).
  destruct (GetSummary _) as [summary|]; unfold fmap, option_fmap, option_map.
  - split.
    + intros H. apply Return_pair_inj in H.
      change two_quotes with (quoted EmptyString) in H.
      apply quoted_inj, strip_empty_iff in H. destruct H as [n ->].
      exists n. reflexivity.
    + intros [n Hn]. injection Hn as ->.
      rewrite (proj2 (strip_empty_iff (quotes n))) by (exists n; reflexivity).
      reflexivity.
  - split; [discriminate | intros [n H]; discriminate H].
Qed.

(** X4.  A result of [show_sname_scope_t] is stable: stripping the
    double quotes of a returned string and wrapping what is left gives
    the string again, so a result never carries a second layer of
    quotes. *)
Theorem show_sname_scope_t_stable (sname_scope : SBValue) (d d' : session_dict)
    (s : string) :
  show_sname_scope_t sname_scope d = (Return s, d') ->
  quoted (strip [dquote] s) = s.
Proof.
  rewrite show_sname_scope_t_run.
  destruct (scope_body sname_scope) as [body|] eqn:Hbody; [|discriminate].
  intros H. injection H as <- _.
  rewrite strip_quoted by exact (scope_body_boundary_free _ _ Hbody).
  reflexivity.
Qed.

(** X5.  [show_sname_t] can return nothing but the two bare double
    quotes, and it returns them exactly when, within the budget, the
    traversal stops (at a null pointer, or at a node whose address it
    has yielded before) after nodes that all lack data. *)
Theorem show_sname_t_returns_iff (fuel : nat) (sname : SBValue)
    (d : session_dict) :
  (forall (s : string) (d' : session_dict),
     show_sname_t fuel sname d = (Return s, d') -> s = two_quotes /\ d' = d)
  /\ (show_sname_t fuel sname d = (Return two_quotes, d)
      <-> exists n : nat,
            n < fuel
            /\ bare_after ∅ (GetChildMemberWithName sname "head") n).
Proof.
  split.
  - intros s d' Hrun. pose proof (show_sname_t_run fuel sname d) as H.
    rewrite Hrun, !elem_of_cons in H.
    destruct H as [H | [H | [H | H]]]; try discriminate H.
    + injection H as -> ->. split; reflexivity.
    + inversion H.
  - rewrite <- (for_linked_list_iter_returns_iff fuel _ ∅
                  (false, EmptyString) d).
    rewrite show_sname_t_unfold.
    pose proof (for_linked_list_iter_run fuel
      (GetChildMemberWithName sname "head") ∅ (false, EmptyString) d) as H.
    rewrite !elem_of_cons in H. destruct H as [-> | [-> | [-> | H]]].
    + split; reflexivity.
    + split; discriminate.
    + split; discriminate.
    + inversion H.
Qed.

(** X6.  The only exception [show_sname_t] raises is the [NameError] of
    line 63, with the session dictionary untouched, and it raises it
    exactly when the traversal yields, within the budget, a node with
    data after nodes that lack it. *)
Theorem show_sname_t_raises_iff (fuel : nat) (sname : SBValue)
    (d : session_dict) :
  (forall (e : exn) (d' : session_dict),
     show_sname_t fuel sname d = (Raise e, d') ->
     e = NameError "sname_scope_t" /\ d' = d)
  /\ (show_sname_t fuel sname d = (Raise (NameError "sname_scope_t"), d)
      <-> exists n : nat,
            n < fuel
            /\ data_after ∅ (GetChildMemberWithName sname "head") n).
Proof.
  split.
  - intros e d' Hrun. pose proof (show_sname_t_run fuel sname d) as H.
    rewrite Hrun, !elem_of_cons in H.
    destruct H as [H | [H | [H | H]]]; try discriminate H.
    + injection H as -> ->. split; reflexivity.
    + inversion H.
  - rewrite <- (for_linked_list_iter_raises_iff fuel _ ∅
                  (false, EmptyString) d).
    rewrite show_sname_t_unfold.
    pose proof (for_linked_list_iter_run fuel
      (GetChildMemberWithName sname "head") ∅ (false, EmptyString) d) as H.
    rewrite !elem_of_cons in H. destruct H as [-> | [-> | [-> | H]]].
    + split; discriminate.
    + split; reflexivity.
    + split; discriminate.
    + inversion H.
Qed.

End MoreProperties.

(** X7.  Two scope values with data and a name, in one debuggee or in
    two, get the same outcome from [show_sname_scope_t] exactly when the
    summaries of their names agree once the double quotes at both ends
    are stripped (or both names have no summary): nothing but boundary
    quotes is lost. *)
Theorem show_sname_scope_t_same_iff (h1 h2 : Host)
    (scope1 : @SBValue h1) (scope2 : @SBValue h2) (d : session_dict) :
  ~ null_pointer (GetChildMemberWithName scope1 "data") ->
  ~ null_pointer (scope_name (GetChildMemberWithName scope1 "data")) ->
  ~ null_pointer (GetChildMemberWithName scope2 "data") ->
  ~ null_pointer (scope_name (GetChildMemberWithName scope2 "data")) ->
  show_sname_scope_t scope1 d = show_sname_scope_t scope2 d
  <-> strip [dquote]
        <$> GetSummary (scope_name (GetChildMemberWithName scope1 "data"))
      = strip [dquote]
          <$> GetSummary (scope_name (GetChildMemberWithName scope2 "data")).
Proof.
  intros Hdata1 Hname1 Hdata2 Hname2.
  rewrite (show_sname_scope_t_named (lldb := h1) scope1 d Hdata1 Hname1).
  rewrite (show_sname_scope_t_named (lldb := h2) scope2 d Hdata2 Hname2).
  destruct (GetSummary _) as [s1|], (GetSummary _) as [s2|];
    unfold fmap, option_fmap, option_map.
  - split.
    + intros H. apply Return_pair_inj, quoted_inj in H. f_equal. exact H.
    + intros H. injection H as ->. reflexivity.
  - split; discriminate.
  - split; discriminate.
  - split; reflexivity.
Qed.


Lemma show_sname_scope_t_empty_iff_witness :
  show_sname_scope_t (lldb := Image.host Inputs.scope_empty_name)
    Inputs.sname_scope ∅ = (Return two_quotes, ∅).
Proof.
  apply (proj2 (show_sname_scope_t_empty_iff
                  (lldb := Image.host Inputs.scope_empty_name)
                  Inputs.sname_scope ∅)).
  right. right. exists 2. vm_compute. reflexivity.
Defined.

Lemma show_sname_scope_t_stable_witness :
  quoted (strip [dquote] (Image.c_string "Foo")) = Image.c_string "Foo".
Proof.
  apply (show_sname_scope_t_stable (lldb := Image.host Inputs.scope_Foo)
           Inputs.sname_scope ∅ ∅).
  vm_compute. reflexivity.
Defined.

Lemma show_sname_t_returns_iff_witness :
  show_sname_t (lldb := Image.host Inputs.name_without_data) 3 Inputs.sname ∅
  = (Return two_quotes, ∅)
  /\ show_sname_t (lldb := Image.host Inputs.name_cycle) 2 Inputs.sname ∅
     = (Return two_quotes, ∅).
Proof.
  split.
  - apply (proj2 (proj2 (show_sname_t_returns_iff
                           (lldb := Image.host Inputs.name_without_data)
                           3 Inputs.sname ∅))).
    exists 2. split; [lia|].
    apply bare_next; [not_null | by_addresses | null_address |].
    apply bare_next; [not_null | by_addresses | null_address |].
    apply bare_end. left. null_address.
  - apply (proj2 (proj2 (show_sname_t_returns_iff
                           (lldb := Image.host Inputs.name_cycle)
                           2 Inputs.sname ∅))).
    exists 1. split; [lia|].
    apply bare_next; [not_null | by_addresses | null_address |].
    apply bare_end. right. by_addresses.
Defined.

Lemma show_sname_t_raises_iff_witness :
  show_sname_t (lldb := Image.host Inputs.name_gap_S) 2 Inputs.sname ∅
  = (Raise (NameError "sname_scope_t"), ∅).
Proof.
  apply (proj2 (proj2 (show_sname_t_raises_iff
                         (lldb := Image.host Inputs.name_gap_S)
                         2 Inputs.sname ∅))).
  exists 1. split; [lia|].
  apply data_later; [not_null | by_addresses | null_address |].
  apply data_here; [not_null | by_addresses | not_null].
Defined.

Lemma show_sname_scope_t_same_iff_witness :
  show_sname_scope_t (lldb := Image.host Inputs.scope_Foo) Inputs.sname_scope ∅
  = show_sname_scope_t (lldb := Image.host Inputs.scope_Foo_twice)
      Inputs.sname_scope ∅.
Proof.
  apply (proj2 (show_sname_scope_t_same_iff
                  (Image.host Inputs.scope_Foo)
                  (Image.host Inputs.scope_Foo_twice)
                  Inputs.sname_scope Inputs.sname_scope ∅
                  ltac:(not_null) ltac:(not_null)
                  ltac:(not_null) ltac:(not_null))).
  vm_compute. reflexivity.
Defined.
